(** * Screen-Exposure Impact Predictor: the scoring rules of [src/App.tsx]

    A shallow embedding of the [App] component's logic: the emptiness check
    on the watched form values ([isFormEmpty]) and the submit handler
    ([onSubmit]) that turns a [FormValues] record into six sub-scores, a harm
    level and a suggestion, and stores them in the component state.

    Numbers.  The source computes on JavaScript numbers (IEEE doubles).
    Every sub-score is obtained from the constant 5 by adding or subtracting
    the constants 1, 2, 3 and 1.5 a bounded number of times, so it is a
    multiple of 1/2 of small magnitude and each double operation on it is
    exact; the sub-scores are therefore modelled as rationals ([Q]).  The
    sum of the six clamped sub-scores is exact for the same reason, and
    dividing it by 6 rounds monotonically with 4 and 7 representable, so the
    comparisons [avg > 7] and [avg > 4] on the rounded quotient agree with
    the same comparisons on the exact quotient.  The numeric form fields are
    registered without [valueAsNumber], so the form hands them over as the
    text of the input; the handler only ever compares them with numeric
    constants, which converts the text to a number first, and they are
    modelled by that number ([number]: a rational or one of the three
    non-finite doubles).  The emptiness check tests the same fields for
    truthiness, where the text itself matters, and is modelled on the text. *)

From Stdlib Require Import QArith Qminmax Lqa List String Bool.
Import ListNotations.
Open Scope Q_scope.

(** ** JavaScript numbers as they reach the comparisons *)

Inductive number : Type :=
| Fin (q : Q)
| NaN
| PosInf
| NegInf.

Module Num.

(** [x < c] for a finite constant [c]; every comparison with NaN is false. *)
Definition ltb (x : number) (c : Q) : bool :=
  match x with
  | Fin q => match q ?= c with Lt => true | _ => false end
  | NegInf => true
  | NaN | PosInf => false
  end.

(** [x <= c]. *)
Definition leb (x : number) (c : Q) : bool :=
  match x with
  | Fin q => match q ?= c with Gt => false | _ => true end
  | NegInf => true
  | NaN | PosInf => false
  end.

(** [x > c]. *)
Definition gtb (x : number) (c : Q) : bool :=
  match x with
  | Fin q => match q ?= c with Gt => true | _ => false end
  | PosInf => true
  | NaN | NegInf => false
  end.

End Num.

(** [a > b] on finite values. *)
Definition Qgtb (a b : Q) : bool :=
  match a ?= b with Gt => true | _ => false end.

(** ** Types and interfaces for form fields *)

Inductive ContentType : Type :=
| educational
| non_educational
| background
| interactive.

Inductive ParentalInvolvement : Type :=
| instructive
| co_viewing
| unmediated.

Inductive YesNo : Type :=
| yes
| no.

Record FormValues : Type := mkFormValues {
  contentType : ContentType;
  duration : number;                (* hours / day *)
  frequency : number;               (* sessions / week *)
  age : number;                     (* months *)
  parentalInvolvement : ParentalInvolvement;
  simultaneousUse : YesNo;
  backgroundFreq : number;          (* 0-5 *)
  maternalScreenTime : number;      (* hours / day *)
  maternalMentalHealth : YesNo
}.

Record Scores : Type := mkScores {
  vocabulary : Q;
  mentalVerb : Q;
  expressive : Q;
  verbalInteraction : Q;
  sentenceComp : Q;
  socialLang : Q
}.

Inductive HarmLevel : Type :=
| Low
| Medium
| High.

Record ScoreResult : Type := mkScoreResult {
  scores : Scores;
  harmLevel : HarmLevel;
  suggestions : string
}.

(** ** The [scores] object: property access and [Object.keys] *)

Inductive Key : Type :=
| KVocabulary
| KMentalVerb
| KExpressive
| KVerbalInteraction
| KSentenceComp
| KSocialLang.

(** [scores[k]]. *)
Definition get (k : Key) (s : Scores) : Q :=
  match k with
  | KVocabulary => vocabulary s
  | KMentalVerb => mentalVerb s
  | KExpressive => expressive s
  | KVerbalInteraction => verbalInteraction s
  | KSentenceComp => sentenceComp s
  | KSocialLang => socialLang s
  end.

(** [scores[k] = v]. *)
Definition set (k : Key) (v : Q) (s : Scores) : Scores :=
  match k with
  | KVocabulary =>
      mkScores v (mentalVerb s) (expressive s) (verbalInteraction s) (sentenceComp s) (socialLang s)
  | KMentalVerb =>
      mkScores (vocabulary s) v (expressive s) (verbalInteraction s) (sentenceComp s) (socialLang s)
  | KExpressive =>
      mkScores (vocabulary s) (mentalVerb s) v (verbalInteraction s) (sentenceComp s) (socialLang s)
  | KVerbalInteraction =>
      mkScores (vocabulary s) (mentalVerb s) (expressive s) v (sentenceComp s) (socialLang s)
  | KSentenceComp =>
      mkScores (vocabulary s) (mentalVerb s) (expressive s) (verbalInteraction s) v (socialLang s)
  | KSocialLang =>
      mkScores (vocabulary s) (mentalVerb s) (expressive s) (verbalInteraction s) (sentenceComp s) v
  end.

(** [Object.keys(scores)]: the own keys in insertion order, which is the
    order of the object literal. *)
Definition Object_keys : list Key :=
  [KVocabulary; KMentalVerb; KExpressive; KVerbalInteraction; KSentenceComp; KSocialLang].

(** [Object.values(scores)]. *)
Definition Object_values (s : Scores) : list Q :=
  map (fun k => get k s) Object_keys.

(** [scores.k += d] and [scores.k -= d]. *)
Definition add_to (k : Key) (d : Q) (s : Scores) : Scores := set k (get k s + d) s.
Definition sub_from (k : Key) (d : Q) (s : Scores) : Scores := set k (get k s - d) s.

(** [Object.keys(scores).forEach((k) => (scores[k] = f(scores[k])))]. *)
Definition forEach_key (f : Q -> Q) (s : Scores) : Scores :=
  fold_left (fun acc k => set k (f (get k acc)) acc) Object_keys s.

(** ** The submit handler, step by step *)

(** 1. Neutral scores. *)
Definition neutral : Scores := mkScores 5 5 5 5 5 5.

(** 2. Content type. *)
Definition applyContentType (c : ContentType) (s : Scores) : Scores :=
  match c with
  | educational =>
      add_to KSentenceComp 1 (add_to KMentalVerb 2 (add_to KVocabulary 2 s))
  | non_educational =>
      sub_from KSocialLang 1 (sub_from KExpressive 1 (sub_from KVocabulary 2 s))
  | background =>
      sub_from KSocialLang 2 (sub_from KExpressive 2 (sub_from KVerbalInteraction 3 s))
  | interactive =>
      add_to KMentalVerb 1 (add_to KSocialLang 2 (add_to KExpressive 1 s))
  end.

(** Parental involvement. *)
Definition applyParentalInvolvement (p : ParentalInvolvement) (s : Scores) : Scores :=
  match p with
  | instructive => forEach_key (fun v => v + 2) s
  | co_viewing => add_to KExpressive 1 (add_to KVerbalInteraction 2 s)
  | unmediated => forEach_key (fun v => v - 2) s
  end.

(** Age thresholds. *)
Definition applyAge (a : number) (s : Scores) : Scores :=
  if Num.ltb a 12 then forEach_key (fun v => v - 2) s
  else if Num.leb a 36 then sub_from KVocabulary 1 s
  else s.

(** Excessive use. *)
Definition applyExcessiveUse (dur freq : number) (s : Scores) : Scores :=
  if Num.gtb dur 2 || Num.gtb freq 7 then forEach_key (fun v => v - 1.5) s
  else s.

Definition is_yes (y : YesNo) : bool :=
  match y with yes => true | no => false end.

(** Contextual factors. *)
Definition applyContext (sim : YesNo) (bg mst : number) (mmh : YesNo) (s : Scores) : Scores :=
  let s := if is_yes sim then sub_from KVerbalInteraction 1 s else s in
  let s := if Num.gtb bg 3
           then sub_from KVerbalInteraction 2 (sub_from KExpressive 2 s)
           else s in
  let s := if Num.gtb mst 4 then sub_from KSocialLang 1 s else s in
  if is_yes mmh then sub_from KMentalVerb 1 s else s.

(** Clamp to 0-10: [Math.max(0, Math.min(10, v))]. *)
Definition clamp (v : Q) : Q := Qmax 0 (Qmin 10 v).

Definition clampAll (s : Scores) : Scores := forEach_key clamp s.

(** The scores before the clamp. *)
Definition adjusted (data : FormValues) : Scores :=
  applyContext (simultaneousUse data) (backgroundFreq data)
               (maternalScreenTime data) (maternalMentalHealth data)
    (applyExcessiveUse (duration data) (frequency data)
      (applyAge (age data)
        (applyParentalInvolvement (parentalInvolvement data)
          (applyContentType (contentType data) neutral)))).

(** 3. Overall harm level + suggestions. *)
Definition average (s : Scores) : Q :=
  fold_left Qplus (Object_values s) 0 / 6.

Definition harmLevelOf (avg : Q) : HarmLevel :=
  if Qgtb avg 7 then Low else if Qgtb avg 4 then Medium else High.

Definition HarmLevel_eqb (a b : HarmLevel) : bool :=
  match a, b with
  | Low, Low | Medium, Medium | High, High => true
  | _, _ => false
  end.

Definition suggestionsOf (h : HarmLevel) : string :=
  if HarmLevel_eqb h High
  then "Reduce screen time, focus on mediated educational content, and increase direct interactions."
  else if HarmLevel_eqb h Medium
  then "Monitor usage; add more parental involvement for better outcomes."
  else "Current setup seems beneficial—continue with educational focus.".

(** What [onSubmit] hands to [setResults]. *)
Definition score (data : FormValues) : ScoreResult :=
  let scores := clampAll (adjusted data) in
  let avg := average scores in
  let harmLevel := harmLevelOf avg in
  let suggestions := suggestionsOf harmLevel in
  mkScoreResult scores harmLevel suggestions.

(** ** Component state *)

(** [useState(null)]: the only state the handler touches. *)
Record AppState : Type := mkAppState {
  results : option ScoreResult
}.

Definition initialState : AppState := mkAppState None.

Definition setResults (r : ScoreResult) (st : AppState) : AppState :=
  mkAppState (Some r).

(** [onSubmit(data)] as a state transformer.  The [scores] accumulator is
    created afresh inside the handler, so nothing but [results] survives a
    call. *)
Definition onSubmit (data : FormValues) (st : AppState) : AppState :=
  setResults (score data) st.

(** ** The watched form values and the emptiness check *)

(** JavaScript's ToBoolean, which [!x] negates. *)
Class ToBoolean (A : Type) : Type := truthy : A -> bool.

(** A string is falsy exactly when it is empty. *)
#[export] Instance string_ToBoolean : ToBoolean string :=
  fun s => match s with EmptyString => false | String _ _ => true end.

(** The string literals behind the three union types. *)
Definition ContentType_literal (c : ContentType) : string :=
  match c with
  | educational => "educational"
  | non_educational => "non-educational"
  | background => "background"
  | interactive => "interactive"
  end.

Definition ParentalInvolvement_literal (p : ParentalInvolvement) : string :=
  match p with
  | instructive => "instructive"
  | co_viewing => "co-viewing"
  | unmediated => "unmediated"
  end.

Definition YesNo_literal (y : YesNo) : string :=
  match y with yes => "yes" | no => "no" end.

#[export] Instance ContentType_ToBoolean : ToBoolean ContentType :=
  fun c => truthy (ContentType_literal c).
#[export] Instance ParentalInvolvement_ToBoolean : ToBoolean ParentalInvolvement :=
  fun p => truthy (ParentalInvolvement_literal p).
#[export] Instance YesNo_ToBoolean : ToBoolean YesNo :=
  fun y => truthy (YesNo_literal y).

(** A field nobody has filled in yet is [undefined] ([None]), which is falsy. *)
#[export] Instance option_ToBoolean {A : Type} `{ToBoolean A} : ToBoolean (option A) :=
  fun o => match o with Some a => truthy a | None => false end.

Module Watched.

(** What [watch()] returns: each of the nine fields is either still absent
    ([undefined]) or holds what its form control holds, an option of the
    select or the text of the number input (the inputs are registered
    without [valueAsNumber]). *)
Record t : Type := mk {
  contentType : option ContentType;
  duration : option string;
  frequency : option string;
  age : option string;
  parentalInvolvement : option ParentalInvolvement;
  simultaneousUse : option YesNo;
  backgroundFreq : option string;
  maternalScreenTime : option string;
  maternalMentalHealth : option YesNo
}.

Definition blank : t := mk None None None None None None None None None.

(** A field is present when it is not [undefined]. *)
Definition filled {A : Type} (o : option A) : bool :=
  match o with Some _ => true | None => false end.

(** At least one of the nine fields is present. *)
Definition anyFilled (fv : t) : bool :=
  filled (contentType fv) || filled (duration fv) || filled (frequency fv)
  || filled (age fv) || filled (parentalInvolvement fv) || filled (simultaneousUse fv)
  || filled (backgroundFreq fv) || filled (maternalScreenTime fv)
  || filled (maternalMentalHealth fv).

(** A number input has a value when it is present and something has been
    typed into it. *)
Definition hasText (o : option string) : bool :=
  match o with
  | Some (String _ _) => true
  | Some EmptyString | None => false
  end.

(** At least one of the nine fields has a value: a select holds one of its
    options, or a number input holds some text. *)
Definition anyValue (fv : t) : bool :=
  filled (contentType fv) || hasText (duration fv) || hasText (frequency fv)
  || hasText (age fv) || filled (parentalInvolvement fv) || filled (simultaneousUse fv)
  || hasText (backgroundFreq fv) || hasText (maternalScreenTime fv)
  || filled (maternalMentalHealth fv).

End Watched.

Definition isFormEmpty (formValues : Watched.t) : bool :=
  negb (truthy (Watched.contentType formValues)) &&
  negb (truthy (Watched.duration formValues)) &&
  negb (truthy (Watched.frequency formValues)) &&
  negb (truthy (Watched.age formValues)) &&
  negb (truthy (Watched.parentalInvolvement formValues)) &&
  negb (truthy (Watched.simultaneousUse formValues)) &&
  negb (truthy (Watched.backgroundFreq formValues)) &&
  negb (truthy (Watched.maternalScreenTime formValues)) &&
  negb (truthy (Watched.maternalMentalHealth formValues)).

(** The submit button's [disabled] attribute. *)
Definition submitDisabled (formValues : Watched.t) : bool := isFormEmpty formValues.

(** ** Vocabulary of the statements *)

(** A property of each of the six sub-scores. *)
Definition each_score (P : Q -> Prop) (s : Scores) : Prop :=
  P (vocabulary s) /\ P (mentalVerb s) /\ P (expressive s) /\
  P (verbalInteraction s) /\ P (sentenceComp s) /\ P (socialLang s).

(** The arithmetic mean of the six sub-scores. *)
Definition mean6 (s : Scores) : Q :=
  (vocabulary s + mentalVerb s + expressive s
   + verbalInteraction s + sentenceComp s + socialLang s) / 6.

(** The three-entry lookup from harm level to recommendation. *)
Definition suggestionTable (h : HarmLevel) : string :=
  match h with
  | High => "Reduce screen time, focus on mediated educational content, and increase direct interactions."
  | Medium => "Monitor usage; add more parental involvement for better outcomes."
  | Low => "Current setup seems beneficial—continue with educational focus."
  end.

(** Two inputs that agree on every field but the content type. *)
Definition agree_except_contentType (d1 d2 : FormValues) : Prop :=
  duration d1 = duration d2 /\ frequency d1 = frequency d2 /\ age d1 = age d2 /\
  parentalInvolvement d1 = parentalInvolvement d2 /\
  simultaneousUse d1 = simultaneousUse d2 /\
  backgroundFreq d1 = backgroundFreq d2 /\
  maternalScreenTime d1 = maternalScreenTime d2 /\
  maternalMentalHealth d1 = maternalMentalHealth d2.

(** Two inputs that agree on every field but the simultaneous-use flag. *)
Definition agree_except_simultaneousUse (d1 d2 : FormValues) : Prop :=
  contentType d1 = contentType d2 /\
  duration d1 = duration d2 /\ frequency d1 = frequency d2 /\ age d1 = age d2 /\
  parentalInvolvement d1 = parentalInvolvement d2 /\
  backgroundFreq d1 = backgroundFreq d2 /\
  maternalScreenTime d1 = maternalScreenTime d2 /\
  maternalMentalHealth d1 = maternalMentalHealth d2.

(** The form values with one field replaced. *)
Definition with_contentType (c : ContentType) (d : FormValues) : FormValues :=
  mkFormValues c (duration d) (frequency d) (age d) (parentalInvolvement d)
    (simultaneousUse d) (backgroundFreq d) (maternalScreenTime d) (maternalMentalHealth d).

Definition with_simultaneousUse (y : YesNo) (d : FormValues) : FormValues :=
  mkFormValues (contentType d) (duration d) (frequency d) (age d) (parentalInvolvement d)
    y (backgroundFreq d) (maternalScreenTime d) (maternalMentalHealth d).

(** The three scenarios used as regression inputs. *)
Definition scenarioA : FormValues :=
  mkFormValues educational (Fin 1) (Fin 3) (Fin 24) co_viewing no (Fin 0) (Fin 1) no.

Definition scenarioB : FormValues :=
  mkFormValues background (Fin 4) (Fin 10) (Fin 8) unmediated yes (Fin 5) (Fin 6) yes.

Definition scenarioC : FormValues :=
  mkFormValues interactive (Fin 0.5) (Fin 2) (Fin 48) instructive no (Fin 0) (Fin 0) no.

(** Inputs whose mean lands exactly on a threshold. *)
Definition meanSeven : FormValues :=
  mkFormValues interactive (Fin 1) (Fin 3) (Fin 24) instructive yes (Fin 0) (Fin 5) yes.

Definition meanFour : FormValues :=
  mkFormValues non_educational (Fin 1) (Fin 3) (Fin 24) co_viewing no (Fin 4) (Fin 0) no.

(** Only the duration has been typed in, and it is zero. *)
Definition zeroDuration : Watched.t :=
  Watched.mk None (Some "0"%string) None None None None None None None.

(** The duration has been typed in and deleted again. *)
Definition clearedDuration : Watched.t :=
  Watched.mk None (Some ""%string) None None None None None None None.

(** ** The results section of the page *)

(** The radar chart's props: axis labels, one dataset, and the radial scale
    (colours, border width and legend position carry no data and are left out). *)
Record RadarChart : Type := mkRadarChart {
  labels : list string;
  datasetLabel : string;
  data : list Q;
  scaleMin : Q;
  scaleMax : Q;
  stepSize : Q
}.

Record ResultsSection : Type := mkResultsSection {
  shownHarmLevel : HarmLevel;
  shownSuggestions : string;
  radar : RadarChart
}.

Definition radarLabels : list string :=
  [ "Vocabulary"; "Mental-Verb Comprehension"; "Expressive Language";
    "Verbal Interaction Quality"; "Sentence Comprehension"; "Social Language" ]%string.

(** [{results && (<section> ... </section>)}]: nothing is rendered while
    [results] is [null]. *)
Definition renderResults (st : AppState) : option ResultsSection :=
  match results st with
  | None => None
  | Some r =>
      Some (mkResultsSection (harmLevel r) (suggestions r)
              (mkRadarChart radarLabels "Impact Score (0-10)"
                 (Object_values (scores r)) 0 10 2))
  end.

(** The axis label that belongs to each sub-score. *)
Definition axisLabel (k : Key) : string :=
  match k with
  | KVocabulary => "Vocabulary"
  | KMentalVerb => "Mental-Verb Comprehension"
  | KExpressive => "Expressive Language"
  | KVerbalInteraction => "Verbal Interaction Quality"
  | KSentenceComp => "Sentence Comprehension"
  | KSocialLang => "Social Language"
  end.

(** Submitting several forms one after the other. *)
Definition submitAll (ds : list FormValues) (st : AppState) : AppState :=
  fold_left (fun acc d => onSubmit d acc) ds st.

(** The watched values of a filled-in form: the selects hold the submitted
    selections and the five number inputs hold the given texts. *)
Definition watchedOf (d : FormValues) (du fr ag bf ms : string) : Watched.t :=
  Watched.mk (Some (contentType d)) (Some du) (Some fr) (Some ag)
    (Some (parentalInvolvement d)) (Some (simultaneousUse d))
    (Some bf) (Some ms) (Some (maternalMentalHealth d)).

(** A number input that is absent or holds no text. *)
Definition blankText (o : option string) : Prop :=
  match o with
  | None | Some EmptyString => True
  | Some (String _ _) => False
  end.

(** A number input that is absent or holds some text. *)
Definition absentOrNonempty (o : option string) : Prop :=
  match o with
  | None | Some (String _ _) => True
  | Some EmptyString => False
  end.

(** ** Further vocabulary of the statements *)

Definition with_parentalInvolvement (p : ParentalInvolvement) (d : FormValues) : FormValues :=
  mkFormValues (contentType d) (duration d) (frequency d) (age d) p
    (simultaneousUse d) (backgroundFreq d) (maternalScreenTime d) (maternalMentalHealth d).

Definition with_age (a : number) (d : FormValues) : FormValues :=
  mkFormValues (contentType d) (duration d) (frequency d) a (parentalInvolvement d)
    (simultaneousUse d) (backgroundFreq d) (maternalScreenTime d) (maternalMentalHealth d).



(** The four exposure measures replaced at once. *)
Definition with_exposure (dur freq bg mst : number) (d : FormValues) : FormValues :=
  mkFormValues (contentType d) dur freq (age d) (parentalInvolvement d)
    (simultaneousUse d) bg mst (maternalMentalHealth d).

(** A multiple of one half. *)
Definition half_integral (v : Q) : Prop := exists n : Z, v == n # 2.

(** Low is the best harm level and High the worst. *)
Definition harm_rank (h : HarmLevel) : nat :=
  match h with Low => 0%nat | Medium => 1%nat | High => 2%nat end.

(** What the handler reads off the numeric fields: the age band, and whether
    each exposure threshold is crossed. *)
Inductive AgeBand : Type :=
| Under12
| From12To36
| Over36.

Definition ageBand (a : number) : AgeBand :=
  if Num.ltb a 12 then Under12 else if Num.leb a 36 then From12To36 else Over36.

Record Profile : Type := mkProfile {
  p_contentType : ContentType;
  p_parentalInvolvement : ParentalInvolvement;
  p_ageBand : AgeBand;
  p_excessive : bool;
  p_simultaneousUse : YesNo;
  p_backgroundHigh : bool;
  p_maternalHigh : bool;
  p_maternalMentalHealth : YesNo
}.

Definition profileOf (d : FormValues) : Profile :=
  mkProfile (contentType d) (parentalInvolvement d) (ageBand (age d))
    (Num.gtb (duration d) 2 || Num.gtb (frequency d) 7)
    (simultaneousUse d) (Num.gtb (backgroundFreq d) 3)
    (Num.gtb (maternalScreenTime d) 4) (maternalMentalHealth d).

(** One form per profile. *)
Definition representative (p : Profile) : FormValues :=
  mkFormValues (p_contentType p)
    (if p_excessive p then Fin 3 else Fin 0) (Fin 0)
    (match p_ageBand p with Under12 => Fin 0 | From12To36 => Fin 12 | Over36 => Fin 37 end)
    (p_parentalInvolvement p) (p_simultaneousUse p)
    (if p_backgroundHigh p then Fin 4 else Fin 0)
    (if p_maternalHigh p then Fin 5 else Fin 0)
    (p_maternalMentalHealth p).

(** The sum of the six sub-scores. *)
Definition total (s : Scores) : Q :=
  vocabulary s + mentalVerb s + expressive s
  + verbalInteraction s + sentenceComp s + socialLang s.

(** The most favourable form. *)
Definition bestCase : FormValues :=
  mkFormValues educational (Fin 1) (Fin 3) (Fin 48) instructive no (Fin 0) (Fin 0) no.

(** * Properties *)

(** ** Property access *)

Lemma get_set_same (k : Key) (v : Q) (s : Scores) : get k (set k v s) = v.
Proof. destruct k; reflexivity. Qed.

Lemma get_set_other (k k' : Key) (v : Q) (s : Scores) :
  k <> k' -> get k (set k' v s) = get k s.
Proof. destruct k, k'; intros Hne; try reflexivity; contradiction Hne; reflexivity. Qed.

(** One pass over the keys rewrites every field, each from its own old value. *)
Lemma get_forEach_key (f : Q -> Q) (k : Key) (s : Scores) :
  get k (forEach_key f s) = f (get k s).
Proof. destruct k; reflexivity. Qed.

Lemma each_score_get (P : Q -> Prop) (s : Scores) :
  each_score P s <-> forall k, P (get k s).
Proof.
  unfold each_score; split.
  - intros (Hv & Hm & He & Hi & Hc & Hl) k; destruct k; assumption.
  - intros H; repeat split;
      [ apply (H KVocabulary) | apply (H KMentalVerb) | apply (H KExpressive)
      | apply (H KVerbalInteraction) | apply (H KSentenceComp) | apply (H KSocialLang) ].
Qed.

Lemma get_scores_score (data : FormValues) (k : Key) :
  get k (scores (score data)) = clamp (get k (adjusted data)).
Proof. unfold score; cbn [scores]; unfold clampAll; apply get_forEach_key. Qed.

(** ** The clamp *)

Lemma clamp_range (v : Q) : 0 <= clamp v <= 10.
Proof.
  unfold clamp; split.
  - apply Q.le_max_l.
  - apply Q.max_lub; [ lra | apply Q.le_min_l ].
Qed.

Lemma clamp_mono (x y : Q) : x <= y -> clamp x <= clamp y.
Proof.
  intros Hxy; unfold clamp.
  apply Q.max_le_compat_l, Q.min_le_compat_l, Hxy.
Qed.

Lemma clamp_le (v b : Q) : 0 <= b -> v <= b -> clamp v <= b.
Proof.
  intros Hb Hv; unfold clamp.
  apply Q.max_lub; [ exact Hb | ].
  apply Qle_trans with v; [ apply Q.le_min_r | exact Hv ].
Qed.

(** C1: for every input, each of the six returned sub-scores lies in the
    closed interval from 0 to 10. *)
Theorem scores_in_range (data : FormValues) :
  each_score (fun v => 0 <= v <= 10) (scores (score data)).
Proof.
  apply each_score_get; intros k.
  rewrite get_scores_score; apply clamp_range.
Qed.

(** ** How far one step can move a field *)

(** Splits the record and the key so that every field access computes. *)
Ltac by_fields :=
  repeat match goal with
         | s : Scores |- _ => destruct s
         | k : Key |- _ => destruct k
         end;
  cbn in *; try lra.

Lemma get_neutral (k : Key) : get k neutral = 5.
Proof. destruct k; reflexivity. Qed.

(** The content type raises a field by 2 at most. *)
Lemma applyContentType_rise (c : ContentType) (k : Key) (s : Scores) :
  get k (applyContentType c s) <= get k s + 2.
Proof. destruct c; by_fields. Qed.

(** So does the parental involvement. *)
Lemma applyParentalInvolvement_rise (p : ParentalInvolvement) (k : Key) (s : Scores) :
  get k (applyParentalInvolvement p s) <= get k s + 2.
Proof. destruct p; by_fields. Qed.

(** The remaining steps only ever subtract. *)
Lemma applyAge_fall (a : number) (k : Key) (s : Scores) :
  get k (applyAge a s) <= get k s.
Proof.
  unfold applyAge; destruct (Num.ltb a 12), (Num.leb a 36); by_fields.
Qed.

Lemma applyExcessiveUse_fall (dur freq : number) (k : Key) (s : Scores) :
  get k (applyExcessiveUse dur freq s) <= get k s.
Proof.
  unfold applyExcessiveUse; destruct (Num.gtb dur 2 || Num.gtb freq 7); by_fields.
Qed.

Lemma applyContext_fall (sim : YesNo) (bg mst : number) (mmh : YesNo) (k : Key) (s : Scores) :
  get k (applyContext sim bg mst mmh s) <= get k s.
Proof.
  unfold applyContext;
    destruct (is_yes sim), (Num.gtb bg 3), (Num.gtb mst 4), (is_yes mmh); by_fields.
Qed.

(** Before the clamp no field exceeds 5 + 2 + 2. *)
Lemma adjusted_le_9 (data : FormValues) (k : Key) : get k (adjusted data) <= 9.
Proof.
  unfold adjusted.
  eapply Qle_trans; [ apply applyContext_fall | ].
  eapply Qle_trans; [ apply applyExcessiveUse_fall | ].
  eapply Qle_trans; [ apply applyAge_fall | ].
  eapply Qle_trans; [ apply applyParentalInvolvement_rise | ].
  pose proof (applyContentType_rise (contentType data) k neutral) as Hc.
  rewrite get_neutral in Hc.
  lra.
Qed.

(** ** Steps act field by field *)

(** Each step after the content type, run on two accumulators with the same
    form values, keeps the order of any one field. *)
Lemma applyParentalInvolvement_mono (p : ParentalInvolvement) (k : Key) (s1 s2 : Scores) :
  get k s1 <= get k s2 ->
  get k (applyParentalInvolvement p s1) <= get k (applyParentalInvolvement p s2).
Proof. destruct p; by_fields. Qed.

Lemma applyAge_mono (a : number) (k : Key) (s1 s2 : Scores) :
  get k s1 <= get k s2 -> get k (applyAge a s1) <= get k (applyAge a s2).
Proof.
  unfold applyAge; destruct (Num.ltb a 12), (Num.leb a 36); by_fields.
Qed.

Lemma applyExcessiveUse_mono (dur freq : number) (k : Key) (s1 s2 : Scores) :
  get k s1 <= get k s2 ->
  get k (applyExcessiveUse dur freq s1) <= get k (applyExcessiveUse dur freq s2).
Proof.
  unfold applyExcessiveUse; destruct (Num.gtb dur 2 || Num.gtb freq 7); by_fields.
Qed.

Lemma applyContext_mono (sim : YesNo) (bg mst : number) (mmh : YesNo) (k : Key) (s1 s2 : Scores) :
  get k s1 <= get k s2 ->
  get k (applyContext sim bg mst mmh s1) <= get k (applyContext sim bg mst mmh s2).
Proof.
  unfold applyContext;
    destruct (is_yes sim), (Num.gtb bg 3), (Num.gtb mst 4), (is_yes mmh); by_fields.
Qed.

Lemma clampAll_mono (k : Key) (s1 s2 : Scores) :
  get k s1 <= get k s2 -> get k (clampAll s1) <= get k (clampAll s2).
Proof.
  intros H; unfold clampAll; rewrite !get_forEach_key; apply clamp_mono, H.
Qed.

Create HintDb fieldwise.
#[export] Hint Resolve applyParentalInvolvement_mono applyAge_mono
  applyExcessiveUse_mono applyContext_mono clampAll_mono : fieldwise.

(** Educational content leaves vocabulary, mental-verb and sentence
    comprehension at least as high as background content does. *)
Lemma educational_ge_background (k : Key) (s : Scores) :
  k = KVocabulary \/ k = KMentalVerb \/ k = KSentenceComp ->
  get k (applyContentType background s) <= get k (applyContentType educational s).
Proof. intros [-> | [-> | ->]]; by_fields. Qed.

(** The simultaneous-use flag reaches the verbal-interaction field only. *)
Lemma applyContext_ignores_simultaneousUse
      (sim1 sim2 : YesNo) (bg mst : number) (mmh : YesNo) (k : Key) (s : Scores) :
  k <> KVerbalInteraction ->
  get k (applyContext sim1 bg mst mmh s) = get k (applyContext sim2 bg mst mmh s).
Proof.
  intros Hk; unfold applyContext.
  destruct (is_yes sim1), (is_yes sim2), (Num.gtb bg 3), (Num.gtb mst 4), (is_yes mmh);
    destruct k, s; cbn; try reflexivity; contradiction Hk; reflexivity.
Qed.

(** C9: for every input, each returned sub-score is at most 9: no field
    gains more than 4 over the neutral 5 before the clamp, so the upper
    clamp bound 10 is never attained. *)
Theorem scores_at_most_9 (data : FormValues) :
  each_score (fun v => v <= 9) (adjusted data) /\
  each_score (fun v => v <= 9) (scores (score data)) /\
  each_score (fun v => ~ v == 10) (scores (score data)).
Proof.
  assert (Hpost : forall k, get k (scores (score data)) <= 9).
  { intros k; rewrite get_scores_score.
    apply clamp_le; [ lra | apply adjusted_le_9 ]. }
  split; [ | split ]; apply each_score_get; intros k.
  - apply adjusted_le_9.
  - apply Hpost.
  - intros H10; specialize (Hpost k); rewrite H10 in Hpost; lra.
Qed.

(** The bound of C9 is met: educational content with instructive mediation
    of a child over 36 months gives vocabulary 9. *)
Example vocabulary_reaches_9 :
  vocabulary (scores (score (mkFormValues educational (Fin 1) (Fin 3) (Fin 48)
                               instructive no (Fin 0) (Fin 0) no))) = 9.
Proof. vm_compute; reflexivity. Qed.

(** C5: of two inputs that agree on all fields except the content type, one
    with background and the other with educational content, the educational
    one gets vocabulary, mental-verb and sentence-comprehension sub-scores at
    least as high as the background one. *)
Theorem educational_not_below_background (bg ed : FormValues) :
  contentType bg = background ->
  contentType ed = educational ->
  agree_except_contentType bg ed ->
  vocabulary (scores (score bg)) <= vocabulary (scores (score ed)) /\
  mentalVerb (scores (score bg)) <= mentalVerb (scores (score ed)) /\
  sentenceComp (scores (score bg)) <= sentenceComp (scores (score ed)).
Proof.
  destruct bg as [c1 du1 fr1 ag1 pi1 su1 bf1 ms1 mh1].
  destruct ed as [c2 du2 fr2 ag2 pi2 su2 bf2 ms2 mh2].
  unfold agree_except_contentType; cbn.
  intros -> -> (-> & -> & -> & -> & -> & -> & -> & ->).
  assert (Hk : forall k, k = KVocabulary \/ k = KMentalVerb \/ k = KSentenceComp ->
            get k (scores (score (mkFormValues background du2 fr2 ag2 pi2 su2 bf2 ms2 mh2)))
            <= get k (scores (score (mkFormValues educational du2 fr2 ag2 pi2 su2 bf2 ms2 mh2)))).
  { intros k Hk; unfold score, adjusted; cbn [scores contentType duration frequency age
      parentalInvolvement simultaneousUse backgroundFreq maternalScreenTime
      maternalMentalHealth].
    auto 8 using educational_ge_background with fieldwise. }
  split; [ | split ].
  - apply (Hk KVocabulary); auto.
  - apply (Hk KMentalVerb); auto.
  - apply (Hk KSentenceComp); auto.
Qed.

Lemma educational_not_below_background_scenarioB :
  vocabulary (scores (score scenarioB))
    <= vocabulary (scores (score (with_contentType educational scenarioB))) /\
  mentalVerb (scores (score scenarioB))
    <= mentalVerb (scores (score (with_contentType educational scenarioB))) /\
  sentenceComp (scores (score scenarioB))
    <= sentenceComp (scores (score (with_contentType educational scenarioB))).
Proof.
  apply (educational_not_below_background scenarioB
           (with_contentType educational scenarioB)).
  - reflexivity.
  - reflexivity.
  - unfold agree_except_contentType; repeat split; reflexivity.
Defined.

(** C10: of two inputs that agree on all fields except the simultaneous-use
    flag, the vocabulary, mental-verb, expressive, sentence-comprehension and
    social-language sub-scores are the same. *)
Theorem simultaneousUse_frame (d1 d2 : FormValues) :
  agree_except_simultaneousUse d1 d2 ->
  vocabulary (scores (score d1)) = vocabulary (scores (score d2)) /\
  mentalVerb (scores (score d1)) = mentalVerb (scores (score d2)) /\
  expressive (scores (score d1)) = expressive (scores (score d2)) /\
  sentenceComp (scores (score d1)) = sentenceComp (scores (score d2)) /\
  socialLang (scores (score d1)) = socialLang (scores (score d2)).
Proof.
  destruct d1 as [c1 du1 fr1 ag1 pi1 su1 bf1 ms1 mh1].
  destruct d2 as [c2 du2 fr2 ag2 pi2 su2 bf2 ms2 mh2].
  unfold agree_except_simultaneousUse; cbn.
  intros (-> & -> & -> & -> & -> & -> & -> & ->).
  assert (Hk : forall k, k <> KVerbalInteraction ->
            get k (scores (score (mkFormValues c2 du2 fr2 ag2 pi2 su1 bf2 ms2 mh2)))
            = get k (scores (score (mkFormValues c2 du2 fr2 ag2 pi2 su2 bf2 ms2 mh2)))).
  { intros k Hk; rewrite !get_scores_score; f_equal.
    unfold adjusted; cbn [contentType duration frequency age parentalInvolvement
      simultaneousUse backgroundFreq maternalScreenTime maternalMentalHealth].
    apply applyContext_ignores_simultaneousUse, Hk. }
  repeat split.
  - apply (Hk KVocabulary); discriminate.
  - apply (Hk KMentalVerb); discriminate.
  - apply (Hk KExpressive); discriminate.
  - apply (Hk KSentenceComp); discriminate.
  - apply (Hk KSocialLang); discriminate.
Qed.

Lemma simultaneousUse_frame_scenarioA :
  vocabulary (scores (score scenarioA))
    = vocabulary (scores (score (with_simultaneousUse yes scenarioA))) /\
  mentalVerb (scores (score scenarioA))
    = mentalVerb (scores (score (with_simultaneousUse yes scenarioA))) /\
  expressive (scores (score scenarioA))
    = expressive (scores (score (with_simultaneousUse yes scenarioA))) /\
  sentenceComp (scores (score scenarioA))
    = sentenceComp (scores (score (with_simultaneousUse yes scenarioA))) /\
  socialLang (scores (score scenarioA))
    = socialLang (scores (score (with_simultaneousUse yes scenarioA))).
Proof.
  apply (simultaneousUse_frame scenarioA (with_simultaneousUse yes scenarioA)).
  unfold agree_except_simultaneousUse; repeat split; reflexivity.
Defined.

(** The flag does reach verbal interaction, and through the mean the harm
    level and the suggestion: on [meanSeven] the flag is set and the mean is
    exactly 7; clearing it lifts verbal interaction from 6 to 7 and the
    harm level from Medium to Low. *)
Example simultaneousUse_moves_verbalInteraction :
  verbalInteraction (scores (score meanSeven)) = 6 /\
  verbalInteraction (scores (score (with_simultaneousUse no meanSeven))) = 7 /\
  harmLevel (score meanSeven) = Medium /\
  harmLevel (score (with_simultaneousUse no meanSeven)) = Low /\
  suggestions (score meanSeven) <> suggestions (score (with_simultaneousUse no meanSeven)).
Proof. vm_compute; repeat split; discriminate. Qed.

(** ** Harm level *)

Lemma Qgtb_true (a b : Q) : Qgtb a b = true <-> b < a.
Proof.
  unfold Qgtb; rewrite (Qgt_alt a b).
  destruct (a ?= b); split; intros H; try reflexivity; discriminate H.
Qed.

Lemma Qgtb_false (a b : Q) : Qgtb a b = false <-> a <= b.
Proof.
  unfold Qgtb; rewrite (Qle_alt a b).
  destruct (a ?= b); split; intros H; try reflexivity; try discriminate;
    try discriminate H; contradiction H; reflexivity.
Qed.

(** The [reduce] over [Object.values] divided by 6 is the arithmetic mean. *)
Lemma average_mean6 (s : Scores) : average s == mean6 s.
Proof.
  destruct s as [v m e i c l].
  unfold average, mean6, Object_values, Object_keys; cbn [map fold_left get
    vocabulary mentalVerb expressive verbalInteraction sentenceComp socialLang].
  apply Qmult_comp; [ ring | reflexivity ].
Qed.

Lemma harmLevelOf_thresholds (avg : Q) :
  (harmLevelOf avg = Low <-> avg > 7) /\
  (harmLevelOf avg = Medium <-> 4 < avg /\ avg <= 7) /\
  (harmLevelOf avg = High <-> avg <= 4).
Proof.
  unfold harmLevelOf.
  destruct (Qgtb avg 7) eqn:H7; destruct (Qgtb avg 4) eqn:H4;
    try apply Qgtb_true in H7; try apply Qgtb_false in H7;
    try apply Qgtb_true in H4; try apply Qgtb_false in H4;
    (split; [ | split ]); split; intros H;
    try reflexivity; try discriminate H;
    try (split; lra); try lra; exfalso; lra.
Qed.

Lemma Qgtb_compat (a b c : Q) : a == b -> Qgtb a c = Qgtb b c.
Proof. intros Hab; unfold Qgtb; rewrite Hab; reflexivity. Qed.

Lemma harmLevelOf_compat (a b : Q) : a == b -> harmLevelOf a = harmLevelOf b.
Proof.
  intros Hab; unfold harmLevelOf.
  rewrite (Qgtb_compat a b 7 Hab), (Qgtb_compat a b 4 Hab); reflexivity.
Qed.

Lemma harmLevel_score (data : FormValues) :
  harmLevel (score data) = harmLevelOf (mean6 (scores (score data))).
Proof.
  unfold score; cbn [harmLevel scores].
  apply harmLevelOf_compat, average_mean6.
Qed.

(** C2: with avg the arithmetic mean of the six clamped sub-scores, the harm
    level is Low exactly when avg > 7, Medium exactly when 4 < avg <= 7, and
    High exactly when avg <= 4; a mean of exactly 7 gives Medium and a mean
    of exactly 4 gives High. *)
Theorem harmLevel_thresholds (data : FormValues) :
  let avg := mean6 (scores (score data)) in
  (harmLevel (score data) = Low <-> avg > 7) /\
  (harmLevel (score data) = Medium <-> 4 < avg /\ avg <= 7) /\
  (harmLevel (score data) = High <-> avg <= 4) /\
  (avg == 7 -> harmLevel (score data) = Medium) /\
  (avg == 4 -> harmLevel (score data) = High).
Proof.
  intros avg; rewrite harmLevel_score; fold avg.
  destruct (harmLevelOf_thresholds avg) as (HL & HM & HH).
  split; [ exact HL | ].
  split; [ exact HM | ].
  split; [ exact HH | ].
  split; intros Heq.
  - apply HM; rewrite Heq; split; lra.
  - apply HH; rewrite Heq; lra.
Qed.

(** Both boundary cases of C2 occur: [meanSeven] has mean exactly 7 and is
    Medium, [meanFour] has mean exactly 4 and is High. *)
Example mean_exactly_7_is_Medium :
  mean6 (scores (score meanSeven)) == 7 /\ harmLevel (score meanSeven) = Medium.
Proof. split; vm_compute; reflexivity. Qed.

Example mean_exactly_4_is_High :
  mean6 (scores (score meanFour)) == 4 /\ harmLevel (score meanFour) = High.
Proof. split; vm_compute; reflexivity. Qed.

(** ** Scenarios *)

(** C3: scenario A (educational, 1 h/day, 3 sessions/week, 24 months,
    co-viewing, no simultaneous use, background 0, maternal screen time 1,
    no maternal symptoms) scores vocabulary 6, mentalVerb 7, expressive 6,
    verbalInteraction 7, sentenceComp 6, socialLang 5 and harm level Medium. *)
Theorem scenarioA_result :
  scores (score scenarioA) = mkScores 6 7 6 7 6 5 /\
  harmLevel (score scenarioA) = Medium.
Proof. split; vm_compute; reflexivity. Qed.

(** C4: scenario B (background, 4 h/day, 10 sessions/week, 8 months,
    unmediated, simultaneous use, background 5, maternal screen time 6,
    maternal symptoms) scores 0 on all six sub-scores and harm level High. *)
Theorem scenarioB_result :
  scores (score scenarioB) = mkScores 0 0 0 0 0 0 /\
  harmLevel (score scenarioB) = High.
Proof. split; vm_compute; reflexivity. Qed.

(** Scenario C stays below the ceiling and is Low. *)
Example scenarioC_result :
  scores (score scenarioC) = mkScores 7 8 8 7 7 9 /\
  harmLevel (score scenarioC) = Low.
Proof. split; vm_compute; reflexivity. Qed.

(** ** Suggestions *)

Lemma suggestionsOf_table (h : HarmLevel) : suggestionsOf h = suggestionTable h.
Proof. destruct h; reflexivity. Qed.

(** C6: the returned suggestion is the entry of the three-entry lookup at
    the returned harm level, so it depends on the input through the harm
    level alone; the entries are the three fixed sentences. *)
Theorem suggestions_by_harmLevel :
  (forall data : FormValues,
      suggestions (score data) = suggestionTable (harmLevel (score data))) /\
  (forall d1 d2 : FormValues,
      harmLevel (score d1) = harmLevel (score d2) ->
      suggestions (score d1) = suggestions (score d2)) /\
  suggestionsOf High
    = "Reduce screen time, focus on mediated educational content, and increase direct interactions."%string /\
  suggestionsOf Medium
    = "Monitor usage; add more parental involvement for better outcomes."%string /\
  suggestionsOf Low
    = "Current setup seems beneficial—continue with educational focus."%string.
Proof.
  assert (Htab : forall data,
             suggestions (score data) = suggestionTable (harmLevel (score data))).
  { intros data; unfold score; cbn [suggestions harmLevel]; apply suggestionsOf_table. }
  split; [ exact Htab | ].
  split; [ intros d1 d2 Heq; rewrite !Htab, Heq; reflexivity | ].
  repeat split.
Qed.

(** ** The emptiness check *)

Lemma isFormEmpty_true (fv : Watched.t) :
  isFormEmpty fv = true <->
  truthy (Watched.contentType fv) = false /\
  truthy (Watched.duration fv) = false /\
  truthy (Watched.frequency fv) = false /\
  truthy (Watched.age fv) = false /\
  truthy (Watched.parentalInvolvement fv) = false /\
  truthy (Watched.simultaneousUse fv) = false /\
  truthy (Watched.backgroundFreq fv) = false /\
  truthy (Watched.maternalScreenTime fv) = false /\
  truthy (Watched.maternalMentalHealth fv) = false.
Proof.
  unfold isFormEmpty.
  rewrite !andb_true_iff, !negb_true_iff.
  tauto.
Qed.

(** A select holds one of its literals, none of which is the empty string. *)
Lemma truthy_ContentType (o : option ContentType) : truthy o = Watched.filled o.
Proof. destruct o as [[] | ]; reflexivity. Qed.

Lemma truthy_ParentalInvolvement (o : option ParentalInvolvement) :
  truthy o = Watched.filled o.
Proof. destruct o as [[] | ]; reflexivity. Qed.

Lemma truthy_YesNo (o : option YesNo) : truthy o = Watched.filled o.
Proof. destruct o as [[] | ]; reflexivity. Qed.

(** A number input is truthy exactly when it holds some text. *)
Lemma truthy_text (o : option string) : truthy o = Watched.hasText o.
Proof. destruct o as [[ | a s] | ]; reflexivity. Qed.

Lemma isFormEmpty_anyValue (fv : Watched.t) :
  isFormEmpty fv = negb (Watched.anyValue fv).
Proof.
  unfold isFormEmpty, Watched.anyValue.
  rewrite !truthy_ContentType, !truthy_ParentalInvolvement, !truthy_YesNo, !truthy_text.
  rewrite !negb_orb; reflexivity.
Qed.

(** C8: for every state of the nine watched fields, the form is reported
    empty, and the submit button disabled, if and only if none of the nine
    fields has a value; the button is enabled as soon as one field has a
    value. *)
Theorem isFormEmpty_iff_no_value (fv : Watched.t) :
  (isFormEmpty fv = true <-> Watched.anyValue fv = false) /\
  (submitDisabled fv = true <-> Watched.anyValue fv = false) /\
  (Watched.anyValue fv = true -> submitDisabled fv = false).
Proof.
  unfold submitDisabled; rewrite isFormEmpty_anyValue.
  destruct (Watched.anyValue fv); cbn; repeat split; intros H;
    try reflexivity; discriminate H.
Qed.

(** A typed zero is the text ["0"], which is a value: the form is not
    reported empty.  An input that was cleared again holds the empty text,
    which is no value. *)
Example typed_zero_is_a_value :
  Watched.anyValue zeroDuration = true /\ isFormEmpty zeroDuration = false.
Proof. split; reflexivity. Qed.

Example cleared_input_is_no_value :
  Watched.anyValue clearedDuration = false /\ isFormEmpty clearedDuration = true.
Proof. split; reflexivity. Qed.

(** * Further properties of the handler *)

(** ** Comparisons on finite numbers *)

Lemma Num_ltb_Fin (q c : Q) : Num.ltb (Fin q) c = true <-> q < c.
Proof.
  cbn; rewrite (Qlt_alt q c).
  destruct (q ?= c); split; intros H; try reflexivity; discriminate H.
Qed.

Lemma Num_leb_Fin (q c : Q) : Num.leb (Fin q) c = true <-> q <= c.
Proof.
  cbn; rewrite (Qle_alt q c).
  destruct (q ?= c); split; intros H; try reflexivity; try discriminate;
    try discriminate H; contradiction H; reflexivity.
Qed.

Lemma Num_gtb_Fin (q c : Q) : Num.gtb (Fin q) c = true <-> c < q.
Proof.
  cbn; rewrite (Qgt_alt q c).
  destruct (q ?= c); split; intros H; try reflexivity; discriminate H.
Qed.

(** A larger finite number crosses every threshold a smaller one crosses. *)
Lemma Num_gtb_Fin_mono (q1 q2 c : Q) :
  q1 <= q2 -> Num.gtb (Fin q1) c = true -> Num.gtb (Fin q2) c = true.
Proof.
  intros Hle H; apply Num_gtb_Fin; apply Num_gtb_Fin in H; lra.
Qed.

(** ** Sub-scores are multiples of one half *)

Lemma half_integral_plus (a b : Q) :
  half_integral a -> half_integral b -> half_integral (a + b).
Proof.
  intros [n Hn] [m Hm]; exists (n + m)%Z.
  rewrite Hn, Hm; unfold Qeq, Qplus; cbn; ring.
Qed.

Lemma half_integral_minus (a b : Q) :
  half_integral a -> half_integral b -> half_integral (a - b).
Proof.
  intros [n Hn] [m Hm]; exists (n - m)%Z.
  rewrite Hn, Hm; unfold Qeq, Qminus, Qplus, Qopp; cbn; ring.
Qed.

(** Literal constants: twice the constant, reduced, is the witness. *)
Ltac half_constant :=
  match goal with
  | |- half_integral (Qmake ?n ?d) =>
      solve [ exists (Qnum (Qred (Qmake n d * 2))); vm_compute; reflexivity ]
  end.

Ltac half_steps :=
  repeat first [ assumption
               | half_constant
               | apply half_integral_minus
               | apply half_integral_plus ].

Lemma half_integral_clamp (v : Q) : half_integral v -> half_integral (clamp v).
Proof.
  intros Hv; unfold clamp, Qmax, Qmin, GenericMinMax.gmax, GenericMinMax.gmin.
  destruct (10 ?= v); destruct (0 ?= _); try assumption; half_constant.
Qed.

Lemma applyContentType_half (c : ContentType) (k : Key) (s : Scores) :
  (forall k', half_integral (get k' s)) -> half_integral (get k (applyContentType c s)).
Proof.
  intros H.
  pose proof (H KVocabulary); pose proof (H KMentalVerb); pose proof (H KExpressive);
    pose proof (H KVerbalInteraction); pose proof (H KSentenceComp);
    pose proof (H KSocialLang); clear H.
  destruct c, k, s; cbn in *; half_steps.
Qed.

Lemma applyParentalInvolvement_half (p : ParentalInvolvement) (k : Key) (s : Scores) :
  (forall k', half_integral (get k' s)) ->
  half_integral (get k (applyParentalInvolvement p s)).
Proof.
  intros H.
  pose proof (H KVocabulary); pose proof (H KMentalVerb); pose proof (H KExpressive);
    pose proof (H KVerbalInteraction); pose proof (H KSentenceComp);
    pose proof (H KSocialLang); clear H.
  destruct p, k, s; cbn in *; half_steps.
Qed.

Lemma applyAge_half (a : number) (k : Key) (s : Scores) :
  (forall k', half_integral (get k' s)) -> half_integral (get k (applyAge a s)).
Proof.
  intros H.
  pose proof (H KVocabulary); pose proof (H KMentalVerb); pose proof (H KExpressive);
    pose proof (H KVerbalInteraction); pose proof (H KSentenceComp);
    pose proof (H KSocialLang); clear H.
  unfold applyAge; destruct (Num.ltb a 12), (Num.leb a 36);
    destruct k, s; cbn in *; half_steps.
Qed.

Lemma applyExcessiveUse_half (dur freq : number) (k : Key) (s : Scores) :
  (forall k', half_integral (get k' s)) ->
  half_integral (get k (applyExcessiveUse dur freq s)).
Proof.
  intros H.
  pose proof (H KVocabulary); pose proof (H KMentalVerb); pose proof (H KExpressive);
    pose proof (H KVerbalInteraction); pose proof (H KSentenceComp);
    pose proof (H KSocialLang); clear H.
  unfold applyExcessiveUse; destruct (Num.gtb dur 2 || Num.gtb freq 7);
    destruct k, s; cbn in *; half_steps.
Qed.

Lemma applyContext_half (sim : YesNo) (bg mst : number) (mmh : YesNo) (k : Key) (s : Scores) :
  (forall k', half_integral (get k' s)) ->
  half_integral (get k (applyContext sim bg mst mmh s)).
Proof.
  intros H.
  pose proof (H KVocabulary); pose proof (H KMentalVerb); pose proof (H KExpressive);
    pose proof (H KVerbalInteraction); pose proof (H KSentenceComp);
    pose proof (H KSocialLang); clear H.
  unfold applyContext;
    destruct (is_yes sim), (Num.gtb bg 3), (Num.gtb mst 4), (is_yes mmh);
    destruct k, s; cbn in *; half_steps.
Qed.

Lemma adjusted_half (data : FormValues) (k : Key) : half_integral (get k (adjusted data)).
Proof.
  revert k; unfold adjusted.
  intros k; apply applyContext_half.
  intros k1; apply applyExcessiveUse_half.
  intros k2; apply applyAge_half.
  intros k3; apply applyParentalInvolvement_half.
  intros k4; apply applyContentType_half.
  intros k5; destruct k5; cbn; half_constant.
Qed.

(** Every sub-score, before and after the clamp, is a multiple of one half,
    and so is the sum of the six returned sub-scores. *)
Theorem scores_half_integral (d : FormValues) :
  each_score half_integral (adjusted d) /\
  each_score half_integral (scores (score d)) /\
  half_integral (total (scores (score d))).
Proof.
  assert (Hpost : forall k, half_integral (get k (scores (score d)))).
  { intros k; rewrite get_scores_score; apply half_integral_clamp, adjusted_half. }
  split; [ | split ].
  - apply each_score_get; intros k; apply adjusted_half.
  - apply each_score_get; exact Hpost.
  - unfold total.
    pose proof (Hpost KVocabulary); pose proof (Hpost KMentalVerb);
      pose proof (Hpost KExpressive); pose proof (Hpost KVerbalInteraction);
      pose proof (Hpost KSentenceComp); pose proof (Hpost KSocialLang).
    cbn [get] in *; half_steps.
Qed.

(** ** How far one step can lower a field *)

Lemma applyContentType_drop (c : ContentType) (k : Key) (s : Scores) :
  get k s - 3 <= get k (applyContentType c s).
Proof. destruct c; by_fields. Qed.

Lemma applyParentalInvolvement_drop (p : ParentalInvolvement) (k : Key) (s : Scores) :
  get k s - 2 <= get k (applyParentalInvolvement p s).
Proof. destruct p; by_fields. Qed.

Lemma applyAge_drop (a : number) (k : Key) (s : Scores) :
  get k s - 2 <= get k (applyAge a s).
Proof.
  unfold applyAge; destruct (Num.ltb a 12), (Num.leb a 36); by_fields.
Qed.

Lemma applyExcessiveUse_drop (dur freq : number) (k : Key) (s : Scores) :
  get k s - 1.5 <= get k (applyExcessiveUse dur freq s).
Proof.
  unfold applyExcessiveUse; destruct (Num.gtb dur 2 || Num.gtb freq 7); by_fields.
Qed.

Lemma applyContext_drop (sim : YesNo) (bg mst : number) (mmh : YesNo) (k : Key) (s : Scores) :
  get k s - 3 <= get k (applyContext sim bg mst mmh s).
Proof.
  unfold applyContext;
    destruct (is_yes sim), (Num.gtb bg 3), (Num.gtb mst 4), (is_yes mmh); by_fields.
Qed.

(** Before the clamp every field lies between -6.5 and 9, and both ends are
    reached: verbal interaction in scenario B is -6.5 and vocabulary in the
    most favourable form is 9.  So the lower clamp bound is needed and the
    upper one never applies. *)
Theorem adjusted_range :
  (forall d : FormValues, each_score (fun v => -6.5 <= v <= 9) (adjusted d)) /\
  verbalInteraction (adjusted scenarioB) == -6.5 /\
  vocabulary (adjusted bestCase) == 9.
Proof.
  split; [ | split; vm_compute; reflexivity ].
  intros d; apply each_score_get; intros k; split; [ | apply adjusted_le_9 ].
  unfold adjusted.
  pose proof (applyContentType_drop (contentType d) k neutral) as H1.
  rewrite get_neutral in H1.
  pose proof (applyParentalInvolvement_drop (parentalInvolvement d) k
                (applyContentType (contentType d) neutral)) as H2.
  pose proof (applyAge_drop (age d) k
                (applyParentalInvolvement (parentalInvolvement d)
                   (applyContentType (contentType d) neutral))) as H3.
  pose proof (applyExcessiveUse_drop (duration d) (frequency d) k
                (applyAge (age d)
                   (applyParentalInvolvement (parentalInvolvement d)
                      (applyContentType (contentType d) neutral)))) as H4.
  pose proof (applyContext_drop (simultaneousUse d) (backgroundFreq d)
                (maternalScreenTime d) (maternalMentalHealth d) k
                (applyExcessiveUse (duration d) (frequency d)
                   (applyAge (age d)
                      (applyParentalInvolvement (parentalInvolvement d)
                         (applyContentType (contentType d) neutral))))) as H5.
  lra.
Qed.

(** ** The clamp once more *)

Lemma get_score_range (d : FormValues) (k : Key) : 0 <= get k (scores (score d)) <= 10.
Proof. rewrite get_scores_score; apply clamp_range. Qed.

Lemma clamp_fixed (v : Q) : 0 <= v <= 10 -> clamp v == v.
Proof.
  intros [H0 H10]; unfold clamp.
  rewrite (Q.min_r 10 v H10); apply Q.max_r, H0.
Qed.

(** Clamping is idempotent: a second pass over a clamped record changes no
    field, and a record already within 0..10 is left as it is. *)
Theorem clampAll_idempotent (s : Scores) (k : Key) :
  get k (clampAll (clampAll s)) == get k (clampAll s) /\
  (0 <= get k s <= 10 -> get k (clampAll s) == get k s).
Proof.
  unfold clampAll; rewrite !get_forEach_key; split.
  - apply clamp_fixed, clamp_range.
  - apply clamp_fixed.
Qed.

(** ** One pass over the keys *)

(** [Object.keys(scores)] lists each of the six fields exactly once, a pass
    over it rewrites each field from its own old value, and two passes
    compose into one. *)
Theorem forEach_key_pass (f g : Q -> Q) (s : Scores) :
  NoDup Object_keys /\
  (forall k, In k Object_keys) /\
  (forall k, get k (forEach_key f s) = f (get k s)) /\
  forEach_key f (forEach_key g s) = forEach_key (fun v => f (g v)) s.
Proof.
  split; [ | split; [ | split ] ].
  - unfold Object_keys.
    repeat (constructor; [ cbn; intuition discriminate | ]); constructor.
  - intros k; destruct k; cbn; tauto.
  - intros k; destruct k; reflexivity.
  - destruct s; reflexivity.
Qed.

(** ** Order between runs *)

(** The sum and the mean grow with the fields. *)
Lemma total_mono (s1 s2 : Scores) :
  (forall k, get k s1 <= get k s2) -> total s1 <= total s2.
Proof.
  intros H.
  pose proof (H KVocabulary); pose proof (H KMentalVerb); pose proof (H KExpressive);
    pose proof (H KVerbalInteraction); pose proof (H KSentenceComp);
    pose proof (H KSocialLang).
  unfold total; cbn [get] in *; lra.
Qed.

Lemma mean6_total (s : Scores) : mean6 s == total s / 6.
Proof. reflexivity. Qed.

Lemma mean6_mono (s1 s2 : Scores) :
  (forall k, get k s1 <= get k s2) -> mean6 s1 <= mean6 s2.
Proof.
  intros H; apply total_mono in H.
  rewrite !mean6_total; unfold Qdiv.
  apply Qmult_le_compat_r; [ exact H | vm_compute; discriminate ].
Qed.

Lemma harmLevelOf_mono (a b : Q) :
  a <= b -> (harm_rank (harmLevelOf b) <= harm_rank (harmLevelOf a))%nat.
Proof.
  intros Hab; unfold harmLevelOf.
  destruct (Qgtb a 7) eqn:Ha7; destruct (Qgtb a 4) eqn:Ha4;
    destruct (Qgtb b 7) eqn:Hb7; destruct (Qgtb b 4) eqn:Hb4; cbn;
    try apply Qgtb_true in Ha7; try apply Qgtb_false in Ha7;
    try apply Qgtb_true in Ha4; try apply Qgtb_false in Ha4;
    try apply Qgtb_true in Hb7; try apply Qgtb_false in Hb7;
    try apply Qgtb_true in Hb4; try apply Qgtb_false in Hb4;
    auto with arith; exfalso; lra.
Qed.

Lemma harmLevel_mono (d1 d2 : FormValues) :
  (forall k, get k (scores (score d1)) <= get k (scores (score d2))) ->
  (harm_rank (harmLevel (score d2)) <= harm_rank (harmLevel (score d1)))%nat.
Proof.
  intros H; rewrite !harmLevel_score.
  apply harmLevelOf_mono, mean6_mono, H.
Qed.

(** The harm level is monotone in the sub-scores: a form whose six
    sub-scores are all at least those of another form gets a harm level that
    is no worse. *)
Theorem higher_scores_no_worse (d1 d2 : FormValues) :
  (forall k, get k (scores (score d1)) <= get k (scores (score d2))) ->
  (harm_rank (harmLevel (score d2)) <= harm_rank (harmLevel (score d1)))%nat.
Proof. apply harmLevel_mono. Qed.

Lemma higher_scores_no_worse_scenarios :
  (harm_rank (harmLevel (score scenarioC)) <= harm_rank (harmLevel (score scenarioB)))%nat.
Proof.
  apply (higher_scores_no_worse scenarioB scenarioC).
  intros k; destruct k; vm_compute; discriminate.
Defined.

(** *** Parental involvement *)

Lemma parental_order (k : Key) (s : Scores) :
  get k (applyParentalInvolvement unmediated s)
    <= get k (applyParentalInvolvement co_viewing s) /\
  get k (applyParentalInvolvement co_viewing s)
    <= get k (applyParentalInvolvement instructive s).
Proof. split; by_fields. Qed.

Lemma after_parental_mono (d : FormValues) (p1 p2 : ParentalInvolvement) (k : Key) :
  (forall s, get k (applyParentalInvolvement p1 s) <= get k (applyParentalInvolvement p2 s)) ->
  get k (scores (score (with_parentalInvolvement p1 d)))
    <= get k (scores (score (with_parentalInvolvement p2 d))).
Proof.
  intros H; unfold score, adjusted, with_parentalInvolvement;
    cbn [scores contentType duration frequency age parentalInvolvement
         simultaneousUse backgroundFreq maternalScreenTime maternalMentalHealth].
  auto 8 with fieldwise.
Qed.

(** All else equal, unmediated viewing never scores above co-viewing and
    co-viewing never above instructive mediation, on any of the six
    sub-scores; the harm level follows the same order. *)
Theorem parentalInvolvement_order (d : FormValues) :
  (forall k,
      get k (scores (score (with_parentalInvolvement unmediated d)))
        <= get k (scores (score (with_parentalInvolvement co_viewing d))) /\
      get k (scores (score (with_parentalInvolvement co_viewing d)))
        <= get k (scores (score (with_parentalInvolvement instructive d)))) /\
  (harm_rank (harmLevel (score (with_parentalInvolvement instructive d)))
     <= harm_rank (harmLevel (score (with_parentalInvolvement co_viewing d))))%nat /\
  (harm_rank (harmLevel (score (with_parentalInvolvement co_viewing d)))
     <= harm_rank (harmLevel (score (with_parentalInvolvement unmediated d))))%nat.
Proof.
  assert (H : forall k,
      get k (scores (score (with_parentalInvolvement unmediated d)))
        <= get k (scores (score (with_parentalInvolvement co_viewing d))) /\
      get k (scores (score (with_parentalInvolvement co_viewing d)))
        <= get k (scores (score (with_parentalInvolvement instructive d)))).
  { intros k; split; apply after_parental_mono; intros s; apply parental_order. }
  split; [ exact H | split ]; apply harmLevel_mono; intros k; apply H.
Qed.

(** *** Steps shift fields *)

(** The steps after the age step move a field by an amount that does not
    depend on the accumulator, so a gap between two runs is carried along. *)
Lemma applyExcessiveUse_shift (dur freq : number) (k : Key) (s1 s2 : Scores) (e : Q) :
  get k s1 <= get k s2 + e ->
  get k (applyExcessiveUse dur freq s1) <= get k (applyExcessiveUse dur freq s2) + e.
Proof.
  unfold applyExcessiveUse; destruct (Num.gtb dur 2 || Num.gtb freq 7); by_fields.
Qed.

Lemma applyContext_shift (sim : YesNo) (bg mst : number) (mmh : YesNo)
      (k : Key) (s1 s2 : Scores) (e : Q) :
  get k s1 <= get k s2 + e ->
  get k (applyContext sim bg mst mmh s1) <= get k (applyContext sim bg mst mmh s2) + e.
Proof.
  unfold applyContext;
    destruct (is_yes sim), (Num.gtb bg 3), (Num.gtb mst 4), (is_yes mmh); by_fields.
Qed.

Lemma applyExcessiveUse_cong (dur freq : number) (k : Key) (s1 s2 : Scores) :
  get k s1 = get k s2 ->
  get k (applyExcessiveUse dur freq s1) = get k (applyExcessiveUse dur freq s2).
Proof.
  unfold applyExcessiveUse; destruct (Num.gtb dur 2 || Num.gtb freq 7);
    destruct k, s1, s2; cbn; intros ->; reflexivity.
Qed.

Lemma applyContext_cong (sim : YesNo) (bg mst : number) (mmh : YesNo)
      (k : Key) (s1 s2 : Scores) :
  get k s1 = get k s2 ->
  get k (applyContext sim bg mst mmh s1) = get k (applyContext sim bg mst mmh s2).
Proof.
  unfold applyContext;
    destruct (is_yes sim), (Num.gtb bg 3), (Num.gtb mst 4), (is_yes mmh);
    destruct k, s1, s2; cbn; intros ->; reflexivity.
Qed.

Lemma clamp_shift (x1 x2 e : Q) : 0 <= e -> x1 <= x2 + e -> clamp x1 <= clamp x2 + e.
Proof.
  intros He Hx.
  apply Qle_trans with (clamp (x2 + e)); [ apply clamp_mono, Hx | ].
  unfold clamp.
  pose proof (Q.le_max_l 0 (Qmin 10 x2)) as H0.
  pose proof (Q.le_max_r 0 (Qmin 10 x2)) as Hm.
  apply Q.max_lub; [ lra | ].
  apply Qle_trans with (Qmin 10 x2 + e); [ | lra ].
  destruct (Q.min_spec 10 x2) as [[Hlt Heq] | [Hge Heq]]; rewrite Heq.
  - pose proof (Q.le_min_l 10 (x2 + e)); lra.
  - apply Q.le_min_r.
Qed.

(** *** Age *)

Lemma Num_ltb_Fin_false (q c : Q) : Num.ltb (Fin q) c = false <-> c <= q.
Proof.
  rewrite <- Bool.not_true_iff_false, Num_ltb_Fin; split; intros H; lra.
Qed.

Lemma Num_leb_Fin_false (q c : Q) : Num.leb (Fin q) c = false <-> c < q.
Proof.
  rewrite <- Bool.not_true_iff_false, Num_leb_Fin; split; intros H; lra.
Qed.

Lemma applyAge_older (a1 a2 : Q) (k : Key) (s : Scores) :
  a1 <= a2 -> get k (applyAge (Fin a1) s) <= get k (applyAge (Fin a2) s).
Proof.
  intros Hle; unfold applyAge.
  destruct (Num.ltb (Fin a2) 12) eqn:L2.
  - apply Num_ltb_Fin in L2.
    assert (L1 : Num.ltb (Fin a1) 12 = true) by (apply Num_ltb_Fin; lra).
    rewrite L1; apply Qle_refl.
  - destruct (Num.leb (Fin a2) 36) eqn:E2.
    + apply Num_leb_Fin in E2.
      assert (E1 : Num.leb (Fin a1) 36 = true) by (apply Num_leb_Fin; lra).
      rewrite E1; destruct (Num.ltb (Fin a1) 12); by_fields.
    + destruct (Num.ltb (Fin a1) 12); [ | destruct (Num.leb (Fin a1) 36) ]; by_fields.
Qed.

(** All else equal, an older child never gets a lower sub-score, nor a worse
    harm level. *)
Theorem older_never_lower (d : FormValues) (a1 a2 : Q) :
  a1 <= a2 ->
  (forall k, get k (scores (score (with_age (Fin a1) d)))
               <= get k (scores (score (with_age (Fin a2) d)))) /\
  (harm_rank (harmLevel (score (with_age (Fin a2) d)))
     <= harm_rank (harmLevel (score (with_age (Fin a1) d))))%nat.
Proof.
  intros Hle.
  assert (H : forall k, get k (scores (score (with_age (Fin a1) d)))
                          <= get k (scores (score (with_age (Fin a2) d)))).
  { intros k; unfold score, adjusted, with_age;
      cbn [scores contentType duration frequency age parentalInvolvement
           simultaneousUse backgroundFreq maternalScreenTime maternalMentalHealth].
    apply clampAll_mono, applyContext_mono, applyExcessiveUse_mono, applyAge_older, Hle. }
  split; [ exact H | apply harmLevel_mono, H ].
Qed.

Lemma older_never_lower_scenarioA :
  (forall k, get k (scores (score (with_age (Fin 8) scenarioA)))
               <= get k (scores (score (with_age (Fin 40) scenarioA)))) /\
  (harm_rank (harmLevel (score (with_age (Fin 40) scenarioA)))
     <= harm_rank (harmLevel (score (with_age (Fin 8) scenarioA))))%nat.
Proof.
  apply (older_never_lower scenarioA 8 40).
  vm_compute; discriminate.
Defined.

Lemma applyAge_in_range (a1 a2 : Q) (s : Scores) :
  12 <= a1 -> 12 <= a2 ->
  (forall k, k <> KVocabulary -> get k (applyAge (Fin a1) s) = get k (applyAge (Fin a2) s)) /\
  get KVocabulary (applyAge (Fin a1) s) <= get KVocabulary (applyAge (Fin a2) s) + 1.
Proof.
  intros H1 H2; unfold applyAge.
  rewrite (proj2 (Num_ltb_Fin_false a1 12) H1), (proj2 (Num_ltb_Fin_false a2 12) H2).
  split.
  - intros k Hk.
    destruct (Num.leb (Fin a1) 36), (Num.leb (Fin a2) 36), k, s;
      try reflexivity; contradiction Hk; reflexivity.
  - destruct (Num.leb (Fin a1) 36), (Num.leb (Fin a2) 36); by_fields.
Qed.

(** For two ages of at least 12 months, which covers the documented range
    of 12 to 60, age can only move vocabulary, and by at most 1. *)
Theorem age_in_range_touches_vocabulary_only (d : FormValues) (a1 a2 : Q) :
  12 <= a1 -> 12 <= a2 ->
  (forall k, k <> KVocabulary ->
             get k (scores (score (with_age (Fin a1) d)))
             = get k (scores (score (with_age (Fin a2) d)))) /\
  vocabulary (scores (score (with_age (Fin a1) d)))
    <= vocabulary (scores (score (with_age (Fin a2) d))) + 1.
Proof.
  intros H1 H2.
  set (s := applyParentalInvolvement (parentalInvolvement d)
              (applyContentType (contentType d) neutral)).
  destruct (applyAge_in_range a1 a2 s H1 H2) as [Hother Hvoc].
  split.
  - intros k Hk; rewrite !get_scores_score; f_equal.
    unfold adjusted, with_age;
      cbn [contentType duration frequency age parentalInvolvement
           simultaneousUse backgroundFreq maternalScreenTime maternalMentalHealth].
    apply applyContext_cong, applyExcessiveUse_cong, Hother, Hk.
  - change (get KVocabulary (scores (score (with_age (Fin a1) d)))
            <= get KVocabulary (scores (score (with_age (Fin a2) d))) + 1).
    rewrite !get_scores_score.
    apply clamp_shift; [ lra | ].
    unfold adjusted, with_age;
      cbn [contentType duration frequency age parentalInvolvement
           simultaneousUse backgroundFreq maternalScreenTime maternalMentalHealth].
    apply applyContext_shift, applyExcessiveUse_shift, Hvoc.
Qed.

Lemma age_in_range_touches_vocabulary_only_scenarioA :
  (forall k, k <> KVocabulary ->
             get k (scores (score (with_age (Fin 24) scenarioA)))
             = get k (scores (score (with_age (Fin 48) scenarioA)))) /\
  vocabulary (scores (score (with_age (Fin 24) scenarioA)))
    <= vocabulary (scores (score (with_age (Fin 48) scenarioA))) + 1.
Proof.
  apply (age_in_range_touches_vocabulary_only scenarioA 24 48);
    vm_compute; discriminate.
Defined.

(** *** Exposure *)

Lemma applyExcessiveUse_more (du1 du2 fr1 fr2 : number) (k : Key) (s : Scores) :
  (Num.gtb du1 2 = true -> Num.gtb du2 2 = true) ->
  (Num.gtb fr1 7 = true -> Num.gtb fr2 7 = true) ->
  get k (applyExcessiveUse du2 fr2 s) <= get k (applyExcessiveUse du1 fr1 s).
Proof.
  intros Hd Hf; unfold applyExcessiveUse.
  destruct (Num.gtb du1 2); destruct (Num.gtb fr1 7);
    try (rewrite Hd by reflexivity); try (rewrite Hf by reflexivity);
    rewrite ?orb_true_r; cbn [orb];
    try (by_fields; fail).
  destruct (Num.gtb du2 2 || Num.gtb fr2 7); by_fields.
Qed.

Lemma applyContext_more (sim : YesNo) (bg1 bg2 ms1 ms2 : number) (mmh : YesNo)
      (k : Key) (s1 s2 : Scores) :
  (Num.gtb bg1 3 = true -> Num.gtb bg2 3 = true) ->
  (Num.gtb ms1 4 = true -> Num.gtb ms2 4 = true) ->
  get k s2 <= get k s1 ->
  get k (applyContext sim bg2 ms2 mmh s2) <= get k (applyContext sim bg1 ms1 mmh s1).
Proof.
  intros Hb Hm; unfold applyContext.
  destruct (Num.gtb bg1 3); destruct (Num.gtb ms1 4);
    try (rewrite Hb by reflexivity); try (rewrite Hm by reflexivity);
    destruct (is_yes sim), (is_yes mmh);
    try (by_fields; fail);
    try (destruct (Num.gtb bg2 3)); try (destruct (Num.gtb ms2 4)); by_fields.
Qed.

(** All else equal, more screen exposure (longer daily duration, more weekly
    sessions, more background media, more maternal screen time) never raises
    a sub-score and never improves the harm level. *)
Theorem more_exposure_never_higher
        (d : FormValues) (du1 du2 fr1 fr2 bg1 bg2 ms1 ms2 : Q) :
  du1 <= du2 -> fr1 <= fr2 -> bg1 <= bg2 -> ms1 <= ms2 ->
  (forall k,
      get k (scores (score (with_exposure (Fin du2) (Fin fr2) (Fin bg2) (Fin ms2) d)))
        <= get k (scores (score (with_exposure (Fin du1) (Fin fr1) (Fin bg1) (Fin ms1) d)))) /\
  (harm_rank (harmLevel (score (with_exposure (Fin du1) (Fin fr1) (Fin bg1) (Fin ms1) d)))
     <= harm_rank (harmLevel
                     (score (with_exposure (Fin du2) (Fin fr2) (Fin bg2) (Fin ms2) d))))%nat.
Proof.
  intros Hdu Hfr Hbg Hms.
  assert (H : forall k,
      get k (scores (score (with_exposure (Fin du2) (Fin fr2) (Fin bg2) (Fin ms2) d)))
        <= get k (scores (score (with_exposure (Fin du1) (Fin fr1) (Fin bg1) (Fin ms1) d)))).
  { intros k; unfold score, adjusted, with_exposure;
      cbn [scores contentType duration frequency age parentalInvolvement
           simultaneousUse backgroundFreq maternalScreenTime maternalMentalHealth].
    apply clampAll_mono, applyContext_more;
      [ apply Num_gtb_Fin_mono, Hbg | apply Num_gtb_Fin_mono, Hms | ].
    apply applyExcessiveUse_more; apply Num_gtb_Fin_mono; assumption. }
  split; [ exact H | apply harmLevel_mono, H ].
Qed.

Lemma more_exposure_never_higher_scenarioA :
  (forall k,
      get k (scores (score (with_exposure (Fin 4) (Fin 10) (Fin 5) (Fin 6) scenarioA)))
        <= get k (scores (score (with_exposure (Fin 1) (Fin 3) (Fin 0) (Fin 1) scenarioA)))) /\
  (harm_rank (harmLevel (score (with_exposure (Fin 1) (Fin 3) (Fin 0) (Fin 1) scenarioA)))
     <= harm_rank (harmLevel
                     (score (with_exposure (Fin 4) (Fin 10) (Fin 5) (Fin 6) scenarioA))))%nat.
Proof.
  apply (more_exposure_never_higher scenarioA 1 4 3 10 0 5 1 6);
    vm_compute; discriminate.
Defined.



(** ** The result depends on the numbers through thresholds only *)

Lemma applyAge_band (a : number) (s : Scores) :
  applyAge a s
  = applyAge (match ageBand a with
              | Under12 => Fin 0 | From12To36 => Fin 12 | Over36 => Fin 37
              end) s.
Proof.
  unfold applyAge, ageBand.
  destruct (Num.ltb a 12); [ reflexivity | ].
  destruct (Num.leb a 36); reflexivity.
Qed.

Lemma applyExcessiveUse_flag (dur freq : number) (s : Scores) :
  applyExcessiveUse dur freq s
  = applyExcessiveUse (if Num.gtb dur 2 || Num.gtb freq 7 then Fin 3 else Fin 0) (Fin 0) s.
Proof.
  unfold applyExcessiveUse.
  destruct (Num.gtb dur 2 || Num.gtb freq 7); reflexivity.
Qed.

Lemma applyContext_flags (sim : YesNo) (bg mst : number) (mmh : YesNo) (s : Scores) :
  applyContext sim bg mst mmh s
  = applyContext sim (if Num.gtb bg 3 then Fin 4 else Fin 0)
      (if Num.gtb mst 4 then Fin 5 else Fin 0) mmh s.
Proof.
  unfold applyContext.
  destruct (Num.gtb bg 3), (Num.gtb mst 4); reflexivity.
Qed.

Lemma adjusted_representative (d : FormValues) :
  adjusted d = adjusted (representative (profileOf d)).
Proof.
  destruct d as [c du fr ag pi su bf ms mh].
  unfold adjusted, representative, profileOf;
    cbn [contentType duration frequency age parentalInvolvement
         simultaneousUse backgroundFreq maternalScreenTime maternalMentalHealth
         p_contentType p_parentalInvolvement p_ageBand p_excessive
         p_simultaneousUse p_backgroundHigh p_maternalHigh p_maternalMentalHealth].
  rewrite (applyContext_flags su bf ms mh), (applyExcessiveUse_flag du fr),
    (applyAge_band ag).
  reflexivity.
Qed.

Lemma score_representative (d : FormValues) :
  score d = score (representative (profileOf d)).
Proof. unfold score; rewrite <- adjusted_representative; reflexivity. Qed.

(** Two forms with the same selections, the same age band and the same
    crossed exposure thresholds get the same result: beyond the tests
    [age < 12], [age <= 36], [duration > 2 || frequency > 7],
    [backgroundFreq > 3] and [maternalScreenTime > 4] the numbers play no
    part. *)
Theorem same_profile_same_score (d1 d2 : FormValues) :
  profileOf d1 = profileOf d2 -> score d1 = score d2.
Proof.
  intros H; rewrite (score_representative d1), (score_representative d2), H.
  reflexivity.
Qed.

Lemma same_profile_same_score_ages :
  score (with_age (Fin 12) scenarioA) = score (with_age (Fin 36) scenarioA).
Proof.
  apply (same_profile_same_score (with_age (Fin 12) scenarioA)
                                 (with_age (Fin 36) scenarioA)).
  reflexivity.
Defined.

(** A numeric field that is not a number fails every comparison, so it is
    scored like the most favourable value: a NaN age like an age above 36
    months, and NaN exposure figures like zero exposure. *)
Theorem nan_scored_as_best_case
        (c : ContentType) (p : ParentalInvolvement) (sim mmh : YesNo) :
  score (mkFormValues c NaN NaN NaN p sim NaN NaN mmh)
  = score (mkFormValues c (Fin 0) (Fin 0) (Fin 37) p sim (Fin 0) (Fin 0) mmh).
Proof.
  rewrite (score_representative (mkFormValues c NaN NaN NaN p sim NaN NaN mmh)).
  rewrite (score_representative (mkFormValues c (Fin 0) (Fin 0) (Fin 37) p sim (Fin 0) (Fin 0) mmh)).
  reflexivity.
Qed.

(** ** What the harm level takes *)

(** Every property of a result can be checked on the 1152 profiles. *)
Lemma low_profile (p : Profile) :
  harmLevel (score (representative p)) = Low ->
  p_parentalInvolvement p = instructive /\
  (p_contentType p = educational \/ p_contentType p = interactive) /\
  p_ageBand p <> Under12 /\
  p_excessive p = false.
Proof.
  destruct p as [[] [] [] [] [] [] [] []]; vm_compute; intros H;
    try discriminate H;
    (split; [ reflexivity | split; [ auto | split; [ discriminate | reflexivity ] ] ]).
Qed.

Lemma unmediated_profile (p : Profile) :
  p_parentalInvolvement p = unmediated -> harmLevel (score (representative p)) = High.
Proof.
  destruct p as [[] [] [] [] [] [] [] []]; intros H; try discriminate H;
    vm_compute; reflexivity.
Qed.

Lemma total_profile (p : Profile) :
  Qle_bool (total (scores (score (representative p)))) 47 = true.
Proof.
  destruct p as [[] [] [] [] [] [] [] []]; vm_compute; reflexivity.
Qed.

(** A Low harm level is only ever returned for instructive mediation of
    educational or interactive content, for a child of at least 12 months
    (or an age that is not a number), without excessive use. *)
Theorem low_requires (d : FormValues) :
  harmLevel (score d) = Low ->
  parentalInvolvement d = instructive /\
  (contentType d = educational \/ contentType d = interactive) /\
  Num.ltb (age d) 12 = false /\
  Num.gtb (duration d) 2 = false /\
  Num.gtb (frequency d) 7 = false.
Proof.
  rewrite (score_representative d); intros H.
  apply low_profile in H; destruct H as (Hp & Hc & Ha & He).
  destruct d as [c du fr ag pi su bf ms mh];
    cbn [profileOf p_contentType p_parentalInvolvement p_ageBand p_excessive
         contentType duration frequency age parentalInvolvement] in *.
  apply orb_false_iff in He; destruct He as [Hdu Hfr].
  repeat split; try assumption.
  unfold ageBand in Ha; destruct (Num.ltb ag 12); [ contradiction Ha | ]; reflexivity.
Qed.

Lemma low_requires_scenarioC :
  parentalInvolvement scenarioC = instructive /\
  (contentType scenarioC = educational \/ contentType scenarioC = interactive) /\
  Num.ltb (age scenarioC) 12 = false /\
  Num.gtb (duration scenarioC) 2 = false /\
  Num.gtb (frequency scenarioC) 7 = false.
Proof.
  apply (low_requires scenarioC).
  vm_compute; reflexivity.
Defined.

Lemma suggestions_score (d : FormValues) :
  suggestions (score d) = suggestionTable (harmLevel (score d)).
Proof. unfold score; cbn [suggestions harmLevel]; apply suggestionsOf_table. Qed.

(** Unmediated viewing always yields harm level High and the suggestion to
    reduce screen time, whatever the other eight fields say. *)
Theorem unmediated_is_High (d : FormValues) :
  parentalInvolvement d = unmediated ->
  harmLevel (score d) = High /\
  suggestions (score d) = suggestionTable High.
Proof.
  intros H.
  assert (HH : harmLevel (score d) = High).
  { rewrite (score_representative d); apply unmediated_profile.
    destruct d; exact H. }
  split; [ exact HH | ].
  rewrite suggestions_score, HH; reflexivity.
Qed.

Lemma unmediated_is_High_scenarioB :
  harmLevel (score scenarioB) = High /\
  suggestions (score scenarioB) = suggestionTable High.
Proof.
  apply (unmediated_is_High scenarioB).
  reflexivity.
Defined.

(** The mean of the six returned sub-scores lies between 0 and 47/6, and the
    most favourable form reaches 47/6: Low is returned with a margin of less
    than one point. *)
Theorem mean_range :
  (forall d : FormValues, 0 <= mean6 (scores (score d)) <= 47 / 6) /\
  mean6 (scores (score bestCase)) == 47 / 6.
Proof.
  split; [ | vm_compute; reflexivity ].
  intros d.
  assert (Hlo : 0 <= total (scores (score d))).
  { pose proof (get_score_range d KVocabulary); pose proof (get_score_range d KMentalVerb);
    pose proof (get_score_range d KExpressive);
    pose proof (get_score_range d KVerbalInteraction);
    pose proof (get_score_range d KSentenceComp); pose proof (get_score_range d KSocialLang).
    unfold total; cbn [get] in *; lra. }
  assert (Hhi : total (scores (score d)) <= 47).
  { rewrite (score_representative d); apply Qle_bool_iff, total_profile. }
  rewrite mean6_total; unfold Qdiv; split.
  - apply Qmult_le_0_compat; [ exact Hlo | vm_compute; discriminate ].
  - apply Qmult_le_compat_r; [ exact Hhi | vm_compute; discriminate ].
Qed.

(** ** Submitting and rendering *)

Lemma submitAll_snoc (ds : list FormValues) (d : FormValues) (st : AppState) :
  submitAll (ds ++ [d]) st = onSubmit d (submitAll ds st).
Proof. unfold submitAll; rewrite fold_left_app; reflexivity. Qed.

(** After any series of submissions the stored result is that of the last
    form alone, and a result, once stored, is never cleared again. *)
Theorem last_submission_wins (ds : list FormValues) (d : FormValues) (st : AppState) :
  results (submitAll (ds ++ [d]) st) = Some (score d) /\
  (results st <> None -> results (submitAll ds st) <> None).
Proof.
  split.
  - rewrite submitAll_snoc; reflexivity.
  - revert st; induction ds as [ | d' ds IH ]; intros st Hst.
    + exact Hst.
    + cbn; apply IH; cbn; discriminate.
Qed.

(** Nothing is rendered before the first submission.  After a submission the
    section shows the computed harm level and suggestion, and the radar chart
    gets one value per axis label, each within the fixed axis range, paired
    with the label of its own sub-score. *)
Theorem rendered_results (d : FormValues) (st : AppState) :
  renderResults initialState = None /\
  exists sec : ResultsSection,
    renderResults (onSubmit d st) = Some sec /\
    shownHarmLevel sec = harmLevel (score d) /\
    shownSuggestions sec = suggestionTable (harmLevel (score d)) /\
    List.length (data (radar sec)) = List.length (labels (radar sec)) /\
    Forall (fun v => scaleMin (radar sec) <= v <= scaleMax (radar sec)) (data (radar sec)) /\
    combine (labels (radar sec)) (data (radar sec))
    = map (fun k => (axisLabel k, get k (scores (score d)))) Object_keys.
Proof.
  split; [ reflexivity | ].
  eexists; split; [ reflexivity | ].
  cbn [shownHarmLevel shownSuggestions radar data labels scaleMin scaleMax].
  split; [ reflexivity | ].
  split; [ apply suggestions_score | ].
  split; [ reflexivity | ].
  split; [ | reflexivity ].
  unfold Object_values; apply Forall_map, Forall_forall.
  intros k _; apply get_score_range.
Qed.

(** ** The emptiness check on filled forms *)

(** A form whose four selects are set is never reported empty, whatever the
    number inputs hold, even if every number in it is zero or missing: the
    selects hold non-empty strings. *)
Theorem submitted_form_not_empty (d : FormValues) (du fr ag bf ms : string) :
  isFormEmpty (watchedOf d du fr ag bf ms) = false /\
  submitDisabled (watchedOf d du fr ag bf ms) = false.
Proof.
  assert (H : isFormEmpty (watchedOf d du fr ag bf ms) = false).
  { rewrite isFormEmpty_anyValue; destruct d as [c ? ? ? pi su ? ? mh]; reflexivity. }
  split; exact H.
Qed.

Lemma hasText_false (o : option string) : Watched.hasText o = false <-> blankText o.
Proof.
  destruct o as [[ | a s] | ]; cbn; split; intros H;
    try exact I; try reflexivity; try discriminate H; contradiction H.
Qed.

Lemma filled_false {A : Type} (o : option A) : Watched.filled o = false <-> o = None.
Proof. destruct o; cbn; split; intros H; try reflexivity; discriminate H. Qed.

Lemma isFormEmpty_blank_fields (fv : Watched.t) :
  isFormEmpty fv = true <->
  Watched.contentType fv = None /\
  Watched.parentalInvolvement fv = None /\
  Watched.simultaneousUse fv = None /\
  Watched.maternalMentalHealth fv = None /\
  blankText (Watched.duration fv) /\
  blankText (Watched.frequency fv) /\
  blankText (Watched.age fv) /\
  blankText (Watched.backgroundFreq fv) /\
  blankText (Watched.maternalScreenTime fv).
Proof.
  rewrite isFormEmpty_anyValue, negb_true_iff; unfold Watched.anyValue.
  rewrite !orb_false_iff, !filled_false, !hasText_false.
  tauto.
Qed.

(** The form is reported empty exactly when none of the four selects holds
    an option and each of the five number inputs is absent or holds the
    empty text. *)
Theorem isFormEmpty_exactly (fv : Watched.t) :
  isFormEmpty fv = true <->
  Watched.contentType fv = None /\
  Watched.parentalInvolvement fv = None /\
  Watched.simultaneousUse fv = None /\
  Watched.maternalMentalHealth fv = None /\
  blankText (Watched.duration fv) /\
  blankText (Watched.frequency fv) /\
  blankText (Watched.age fv) /\
  blankText (Watched.backgroundFreq fv) /\
  blankText (Watched.maternalScreenTime fv).
Proof. apply isFormEmpty_blank_fields. Qed.

Lemma hasText_filled (o : option string) :
  absentOrNonempty o -> Watched.hasText o = Watched.filled o.
Proof. destruct o as [[ | a s] | ]; cbn; intros H; try reflexivity; contradiction H. Qed.

(** As long as no number input that is present holds the empty text, the
    check is exact for presence: the form is reported empty if and only if
    none of the nine fields is present.  A typed zero is no exception. *)
Theorem isFormEmpty_iff_nothing_filled (fv : Watched.t) :
  absentOrNonempty (Watched.duration fv) ->
  absentOrNonempty (Watched.frequency fv) ->
  absentOrNonempty (Watched.age fv) ->
  absentOrNonempty (Watched.backgroundFreq fv) ->
  absentOrNonempty (Watched.maternalScreenTime fv) ->
  isFormEmpty fv = negb (Watched.anyFilled fv).
Proof.
  intros Hdu Hfr Hag Hbf Hms.
  rewrite isFormEmpty_anyValue; unfold Watched.anyValue, Watched.anyFilled.
  rewrite (hasText_filled _ Hdu), (hasText_filled _ Hfr), (hasText_filled _ Hag),
    (hasText_filled _ Hbf), (hasText_filled _ Hms).
  reflexivity.
Qed.

Lemma isFormEmpty_iff_nothing_filled_twoHours :
  isFormEmpty (Watched.mk None (Some "2"%string) None None None None None None None)
  = negb (Watched.anyFilled
            (Watched.mk None (Some "2"%string) None None None None None None None)).
Proof.
  apply (isFormEmpty_iff_nothing_filled
           (Watched.mk None (Some "2"%string) None None None None None None None));
    exact I.
Defined.
